(** * tidy-utils: NumericInput and Dropdown

    A shallow embedding of the two Preact components of the library,
    [src/NumericInput.tsx] and [src/Dropdown.tsx], and the properties of
    their event handlers, hook state and rendered output. *)

From Stdlib Require Import ZArith List String Ascii Bool.
From Stdlib Require Import SpecFloat.
Import ListNotations.
Open Scope string_scope.

(** ** The JavaScript built-ins the components call *)

Module JS.
Local Open Scope Z_scope.

(** A JavaScript Number is an IEEE 754 binary64 value: signed zeros,
    signed infinities, one NaN, and finite values [m * 2^e]. *)
Definition number : Type := spec_float.

Definition prec : Z := 53.
Definition emax : Z := 1024.

Definition NaN : number := S754_nan.
Definition Infinity : number := S754_infinity false.

(** Global [isNaN], on an argument that is already a Number. *)
Definition isNaN (x : number) : bool :=
  match x with
  | S754_nan => true
  | _ => false
  end.

(** Global [isFinite], on an argument that is already a Number. *)
Definition isFinite (x : number) : bool :=
  match x with
  | S754_nan | S754_infinity _ => false
  | _ => true
  end.

(** Completion of a call: a normal return or a thrown exception. *)
Inductive outcome (A : Type) : Type :=
| Returns (a : A)
| Throws (e : string).
Arguments Returns {A} a.
Arguments Throws {A} e.

(** A value of type [T | null | undefined] (an optional, nullable prop). *)
Inductive nullable (A : Type) : Type :=
| Undefined
| Null
| Obj (a : A).
Arguments Undefined {A}.
Arguments Null {A}.
Arguments Obj {A} a.

(** *** parseFloat

    Strings are sequences of code units; a character of a Rocq string
    stands for the code unit with the same number (0..255). *)

Definition code (c : ascii) : nat := nat_of_ascii c.

(** WhiteSpace and LineTerminator code units below 256:
    TAB, LF, VT, FF, CR, SP, NBSP. *)
Definition is_white (c : ascii) : bool :=
  existsb (Nat.eqb (code c)) [9; 10; 11; 12; 13; 32; 160]%nat.

Definition is_digit (c : ascii) : bool :=
  ((48 <=? code c) && (code c <=? 57))%nat.

Definition digit_val (c : ascii) : Z := Z.of_nat (code c) - 48.

(** TrimString(s, start). *)
Fixpoint trim_start (s : string) : string :=
  match s with
  | String c s' => if is_white c then trim_start s' else s
  | EmptyString => s
  end.

(** The longest run of DecimalDigits at the head of [s], and what follows. *)
Fixpoint take_digits (s : string) : list Z * string :=
  match s with
  | String c s' =>
      if is_digit c
      then let (ds, r) := take_digits s' in (digit_val c :: ds, r)
      else ([], s)
  | EmptyString => ([], s)
  end.

(** The mathematical value of a digit sequence. *)
Definition digits_value (ds : list Z) : Z :=
  fold_left (fun acc d => 10 * acc + d) ds 0.

(** If [p] is a prefix of [s], what follows it. *)
Fixpoint strip_prefix (p s : string) : option string :=
  match p, s with
  | EmptyString, _ => Some s
  | String a p', String b s' =>
      if Ascii.eqb a b then strip_prefix p' s' else None
  | String _ _, EmptyString => None
  end.

(** An optional leading [+] or [-]: the sign (true for minus) and the rest. *)
Definition take_sign (s : string) : bool * string :=
  match s with
  | String "+" s' => (false, s')
  | String "-" s' => (true, s')
  | _ => (false, s)
  end.

(** ExponentPart, when one is present in full at the head of [s]:
    [e] or [E], an optional sign, and at least one digit. Its value,
    0 when there is none. *)
Definition take_exponent (s : string) : Z :=
  match s with
  | String c s' =>
      if (Ascii.eqb c "e" || Ascii.eqb c "E")%bool
      then let (neg, r) := take_sign s' in
           match fst (take_digits r) with
           | [] => 0
           | ds => if neg then - digits_value ds else digits_value ds
           end
      else 0
  | EmptyString => 0
  end.

(** The Number value of [m * 10^e] for [m > 0]: the nearest binary64
    value, ties to even, an infinity on overflow and a zero on underflow.
    A negative [e] divides by a power of ten with one rounding. *)
Definition round_decimal (neg : bool) (m e : Z) : number :=
  match m with
  | Zpos p =>
      match e with
      | Zneg q =>
          let '(mz, ez, lz) :=
            SFdiv_core_binary prec emax (Zpos p) 0 (Z.pow_pos 10 q) 0 in
          binary_round_aux prec emax neg mz ez lz
      | _ =>
          match Zpos p * 10 ^ e with
          | Zpos n => binary_round prec emax neg n 0
          | _ => S754_zero neg
          end
      end
  | _ => S754_zero neg
  end.

(** The longest prefix of [s] that is a StrUnsignedDecimalLiteral, as a
    Number of sign [neg]; NaN when no prefix is one. *)
Definition parse_unsigned (neg : bool) (s : string) : number :=
  match strip_prefix "Infinity" s with
  | Some _ => S754_infinity neg
  | None =>
      let (intd, r1) := take_digits s in
      match r1 with
      | String "." r1' =>
          let (fracd, r2) := take_digits r1' in
          match (intd ++ fracd)%list with
          | [] => NaN
          | ds =>
              round_decimal neg (digits_value ds)
                (take_exponent r2 - Z.of_nat (List.length fracd))
          end
      | _ =>
          match intd with
          | [] => NaN
          | ds => round_decimal neg (digits_value ds) (take_exponent r1)
          end
      end
  end.

(** [parseFloat(string)]: trim leading white space, take the longest
    prefix that is a StrDecimalLiteral, return its Number value, or NaN
    when there is no such prefix. *)
Definition parseFloat (s : string) : number :=
  let (neg, r) := take_sign (trim_start s) in
  parse_unsigned neg r.

End JS.

Import JS.

(** ** Preact: hooks, virtual DOM nodes and event handlers *)

Module Preact.

(** The effects of component code, in program order: handlers and render
    functions log the actions they perform (state-setter calls, calls of
    the caller's callbacks, [preventDefault]) and complete normally or
    with an exception, after which nothing more is logged. *)
Definition M (action R : Type) : Type := (list action * outcome R)%type.

Definition ret {action R} (r : R) : M action R := ([], Returns r).

Definition bind {action R T} (m : M action R) (k : R -> M action T)
  : M action T :=
  match m with
  | (l, Returns r) => let (l', t) := k r in ((l ++ l')%list, t)
  | (l, Throws e) => (l, Throws e)
  end.

(** An action of the component itself: it is logged and returns. *)
Definition perform {action} (a : action) : M action unit :=
  ([a], Returns tt).

(** A call of a caller-supplied function: it is logged and completes the
    way the callee does. *)
Definition call {action R} (a : action) (callee : outcome R) : M action R :=
  ([a], callee).

Definition throw {action R} (e : string) : M action R := ([], Throws e).

(** Truthiness of a value that is an object, [null] or [undefined]. *)
Definition truthy {A} (x : nullable A) : bool :=
  match x with
  | Obj _ => true
  | _ => false
  end.

(** Property access [x.f]: a TypeError when [x] is [null] or [undefined]. *)
Definition member {action A B} (x : nullable A) (f : A -> B) : M action B :=
  match x with
  | Obj a => ret (f a)
  | _ => throw "TypeError"
  end.

(** [useState(initial)]: the hook cell is empty before the first render,
    which fills it with [initial]; every later render returns what the
    cell holds and ignores [initial]. *)
Definition useState {S : Type} (initial : S) (cell : option S)
  : S * option S :=
  match cell with
  | None => (initial, Some initial)
  | Some v => (v, Some v)
  end.

(** The part of a DOM event the handlers read. *)
Record event : Type := { currentTarget_value : string }.

#[local] Set Warnings "-register-all".

Section VDom.
Variable action : Type.

Inductive prop_value : Type :=
| PStr (s : string)
| PNum (n : number)
| PUndefined
| PHandler (h : event -> M action unit).

(** A virtual DOM node. [VEmpty] is a child that is [false], [null] or
    [undefined] and renders nothing; [VForeign] is an element built by
    the caller. *)
Inductive vnode (E : Type) : Type :=
| VText (s : string)
| VEmpty
| VForeign (e : E)
| VElem (tag : string) (props : list (string * prop_value))
    (children : list (vnode E)).

End VDom.

Arguments PStr {action} s.
Arguments PNum {action} n.
Arguments PUndefined {action}.
Arguments PHandler {action} h.
Arguments VText {action E} s.
Arguments VEmpty {action E}.
Arguments VForeign {action E} e.
Arguments VElem {action E} tag props children.

(** An optional string prop: [undefined] when absent. *)
Definition opt_str {action} (s : option string) : prop_value action :=
  match s with
  | Some x => PStr x
  | None => PUndefined
  end.

(** A child that is a string or [undefined]. *)
Definition opt_text {action E} (s : option string) : vnode action E :=
  match s with
  | Some x => VText x
  | None => VEmpty
  end.

Fixpoint get_prop {action} (name : string)
    (ps : list (string * prop_value action)) : option (prop_value action) :=
  match ps with
  | [] => None
  | (n, v) :: ps' => if String.eqb n name then Some v else get_prop name ps'
  end.

Definition props_of {action E} (v : vnode action E)
  : list (string * prop_value action) :=
  match v with
  | VElem _ ps _ => ps
  | _ => []
  end.

Definition children_of {action E} (v : vnode action E)
  : list (vnode action E) :=
  match v with
  | VElem _ _ ch => ch
  | _ => []
  end.

(** The listener an element has for an event, if any. *)
Definition handler_of {action E} (name : string) (v : vnode action E)
  : option (event -> M action unit) :=
  match get_prop name (props_of v) with
  | Some (PHandler h) => Some h
  | _ => None
  end.

Definition has_class {action E} (c : string) (v : vnode action E) : bool :=
  match get_prop "className" (props_of v) with
  | Some (PStr c') => String.eqb c c'
  | _ => false
  end.

(** The first element of class [c] in document order. *)
Fixpoint find_class {action E} (c : string) (v : vnode action E)
  : option (vnode action E) :=
  if has_class c v then Some v
  else
    match v with
    | VElem _ _ ch =>
        (fix first (l : list (vnode action E)) : option (vnode action E) :=
           match l with
           | [] => None
           | x :: r =>
               match find_class c x with
               | Some y => Some y
               | None => first r
               end
           end) ch
    | _ => None
    end.

(** The text an element shows: its text descendants in document order. *)
Fixpoint text_of {action E} (v : vnode action E) : list string :=
  match v with
  | VText s => [s]
  | VElem _ _ ch => flat_map text_of ch
  | _ => []
  end.

End Preact.

Import Preact.

Declare Scope m_scope.
Delimit Scope m_scope with M.
Notation "x <- m ;; k" := (bind m (fun x => k))
  (at level 61, m at next level, right associativity) : m_scope.
Notation "m ;; k" := (bind m (fun _ => k))
  (at level 61, right associativity) : m_scope.

Local Open Scope m_scope.

(** ** src/Dropdown.tsx *)

Module Dropdown.

(** [id: string | number]. *)
Inductive ident : Type :=
| IdStr (s : string)
| IdNum (n : number).

(** A value of one of the additional, caller-defined properties. *)
Inductive any : Type :=
| AUndefined
| ANull
| ABool (b : bool)
| ANum (n : number)
| AStr (s : string).

Record DropdownOption : Type := {
  id : ident;
  name : string;
  extra : list (string * any)
}.

(** What code that holds the component's state setter, an event, the
    caller's callback and the caller's option objects can do besides
    computing: set the hook state, cancel the default action of the
    event, call [onSelect], and assign to a property of the [index]-th
    option object of the list, which changes that object for the caller
    as well. *)
Inductive action : Type :=
| SetIsOpen (value : bool)
| PreventDefault
| OnSelect (opt : option DropdownOption)
| Assign (index : nat) (update : DropdownOption -> DropdownOption).

(** The list with its [i]-th element changed by [f]. *)
Fixpoint update_at {A : Type} (i : nat) (f : A -> A) (l : list A) : list A :=
  match l, i with
  | [], _ => []
  | x :: l', O => f x :: l'
  | x :: l', S i' => x :: update_at i' f l'
  end.

Section WithElement.
(** [h.JSX.Element], as built by the caller's [renderOption]. *)
Context {JSXElement : Type}.

Definition node : Type := vnode action JSXElement.

Record DropdownProps : Type := {
  options : list DropdownOption;
  selectedOption : nullable DropdownOption;
  onSelect : option DropdownOption -> outcome unit;
  placeholder : option string;
  renderOption : option (DropdownOption -> JSXElement)
}.

Definition key_of (i : ident) : prop_value action :=
  match i with
  | IdStr s => PStr s
  | IdNum n => PNum n
  end.

Definition DropdownButton
    (selectedOption : nullable DropdownOption)
    (placeholder : option string)
    (toggleDropdown : M action unit)
    (setIsOpen : bool -> M action unit) : M action node :=
  title <- (if truthy selectedOption
            then n <- member selectedOption name ;; ret (Some n)
            else ret placeholder) ;;
  ret (VElem "button"
         [("className", PStr "dropdown-toggle");
          ("onClick", PHandler (fun _ => toggleDropdown));
          ("onBlur", PHandler (fun _ => setIsOpen false))]
         [VElem "div" [("className", PStr "select-dropdown-title")]
            [VElem "div" [("id", PStr "dropdown-title")]
               [opt_text title]]]).

(** What a menu item shows for an option. *)
Definition item_content
    (renderOption : option (DropdownOption -> JSXElement))
    (opt : DropdownOption) : node :=
  match renderOption with
  | Some render => VForeign (render opt)
  | None => VText (name opt)
  end.

Definition DropdownMenu
    (options : list DropdownOption)
    (handleSelect : DropdownOption -> M action unit)
    (renderOption : option (DropdownOption -> JSXElement)) : node :=
  VElem "div" [("className", PStr "dropdown-menu")]
    (map (fun opt =>
            VElem "div"
              [("key", key_of (id opt));
               ("className", PStr "dropdown-item");
               ("onMouseDown",
                PHandler (fun e => perform PreventDefault ;;
                                   handleSelect opt))]
              [item_content renderOption opt])
         options).

Definition setIsOpen (value : bool) : M action unit :=
  perform (SetIsOpen value).

(** [toggleDropdown], closed over the [isOpen] of the render that made it. *)
Definition toggleDropdown (isOpen : bool) : M action unit :=
  setIsOpen (negb isOpen).

Definition handleSelect (props : DropdownProps) (opt : DropdownOption)
  : M action unit :=
  call (OnSelect (Some opt)) (onSelect props (Some opt)) ;;
  setIsOpen false.

(** One render of [Dropdown] on the hook cell [hook]: the rendered tree
    and the cell afterwards. *)
Definition Dropdown (props : DropdownProps) (hook : option bool)
  : M action (node * option bool) :=
  let placeholder :=
    match placeholder props with
    | Some s => s
    | None => "Select an option"
    end in
  let (isOpen, hook') := useState false hook in
  button <- DropdownButton (selectedOption props) (Some placeholder)
              (toggleDropdown isOpen) setIsOpen ;;
  ret (VElem "div" [("className", PStr "dropdown-comp")]
         [VElem "div" [("className", PStr "dropdown-wrapper")]
            [button;
             if isOpen
             then DropdownMenu (options props) (handleSelect props)
                    (renderOption props)
             else VEmpty]],
       hook').

(** *** The mounted component and the events it receives *)

(** What the component can reach: the props the caller passed (its
    option objects among them) and its own hook cell. *)
Record world : Type := {
  props : DropdownProps;
  isOpen_hook : option bool
}.

(** The effect of an action on what the component can reach. *)
Definition write (a : action) (w : world) : world :=
  match a with
  | SetIsOpen value => {| props := props w; isOpen_hook := Some value |}
  | PreventDefault => w
  | OnSelect _ => w
  | Assign index update =>
      {| props :=
           {| options := update_at index update (options (props w));
              selectedOption := selectedOption (props w);
              onSelect := onSelect (props w);
              placeholder := placeholder (props w);
              renderOption := renderOption (props w) |};
         isOpen_hook := isOpen_hook w |}
  end.

Definition commit (l : list action) (w : world) : world :=
  fold_left (fun w a => write a w) l w.

(** DOM events on the rendered tree: a click on the toggle button, the
    toggle button losing focus, a mouse button going down on the
    [i]-th menu item. *)
Inductive interaction : Type :=
| ClickToggle
| BlurToggle
| MouseDownItem (i : nat).

(** The listener of the rendered tree that an event reaches, if any. *)
Definition listener (view : node) (ev : interaction)
  : option (event -> M action unit) :=
  match ev with
  | ClickToggle =>
      match find_class "dropdown-toggle" view with
      | Some b => handler_of "onClick" b
      | None => None
      end
  | BlurToggle =>
      match find_class "dropdown-toggle" view with
      | Some b => handler_of "onBlur" b
      | None => None
      end
  | MouseDownItem i =>
      match find_class "dropdown-menu" view with
      | Some m =>
          match nth_error (children_of m) i with
          | Some item => handler_of "onMouseDown" item
          | None => None
          end
      | None => None
      end
  end.

Record reaction : Type := {
  next : world;
  trace : list action;
  result : outcome unit
}.

(** One event on the mounted component: the listener of the current
    render runs, its state updates are committed, and the host renders
    again. An event with no listener does nothing. *)
Definition dispatch (w : world) (ev : interaction) : reaction :=
  match Dropdown (props w) (isOpen_hook w) with
  | (_, Returns (view, hook')) =>
      let w' := {| props := props w; isOpen_hook := hook' |} in
      match listener view ev with
      | Some h =>
          let (l, r) := h {| currentTarget_value := EmptyString |} in
          {| next := commit l w'; trace := l; result := r |}
      | None => {| next := w'; trace := []; result := Returns tt |}
      end
  | (_, Throws e) => {| next := w; trace := []; result := Throws e |}
  end.

(** A sequence of events, each on the render that follows the one
    before: the final state and everything that was done. *)
Fixpoint run (w : world) (evs : list interaction) : world * list action :=
  match evs with
  | [] => (w, [])
  | ev :: evs' =>
      let r := dispatch w ev in
      let (w', l) := run (next r) evs' in
      (w', (trace r ++ l)%list)
  end.

(** The first render. *)
Definition mount (props : DropdownProps) : M action (node * option bool) :=
  Dropdown props None.

(** *** A pointer press on a menu item, in the page

    The press first delivers [mousedown] to the item. Its default
    action moves the focus to what was pressed, so a toggle button that
    had the focus loses it and receives [blur]; a listener that called
    [preventDefault] cancels that default action and the focus stays
    where it was. *)
Record page : Type := {
  mounted : world;
  toggle_focused : bool
}.

Record press : Type := {
  page_after : page;
  delivered : list interaction;
  done : list action
}.

Definition canceled (l : list action) : bool :=
  existsb (fun a => match a with PreventDefault => true | _ => false end) l.

Definition press_item (pg : page) (i : nat) : press :=
  let r := dispatch (mounted pg) (MouseDownItem i) in
  if (canceled (trace r) || negb (toggle_focused pg))%bool
  then {| page_after := {| mounted := next r;
                           toggle_focused := toggle_focused pg |};
          delivered := [MouseDownItem i];
          done := trace r |}
  else let r' := dispatch (next r) BlurToggle in
       {| page_after := {| mounted := next r'; toggle_focused := false |};
          delivered := [MouseDownItem i; BlurToggle];
          done := (trace r ++ trace r')%list |}.

(** Whether the rendered tree shows the menu. *)
Definition shows_menu (view : node) : bool :=
  match find_class "dropdown-menu" view with
  | Some _ => true
  | None => false
  end.

End WithElement.

Arguments DropdownProps : clear implicits.
Arguments world : clear implicits.
Arguments reaction : clear implicits.
Arguments node : clear implicits.
Arguments page : clear implicits.
Arguments press : clear implicits.

End Dropdown.

(** ** The element NumericInput renders: an input of type number *)

Module HTMLInput.

(** What may follow the digits of a valid floating-point number: nothing,
    or an exponent ([e] or [E], an optional sign, one or more digits)
    and nothing after it. *)
Definition valid_exponent (s : string) : bool :=
  match s with
  | EmptyString => true
  | String c s' =>
      if (Ascii.eqb c "e" || Ascii.eqb c "E")%bool
      then let (ds, r) := take_digits (snd (take_sign s')) in
           match ds, r with
           | _ :: _, EmptyString => true
           | _, _ => false
           end
      else false
  end.

(** Digits, digits with a fraction, or a fraction alone, then the end or
    an exponent; a dot with no digit after it is not allowed. *)
Definition valid_unsigned (s : string) : bool :=
  let (intd, r1) := take_digits s in
  match r1 with
  | String "." r1' =>
      let (fracd, r2) := take_digits r1' in
      match fracd with
      | [] => false
      | _ :: _ => valid_exponent r2
      end
  | _ =>
      match intd with
      | [] => false
      | _ :: _ => valid_exponent r1
      end
  end.

(** A valid floating-point number of HTML: an optional minus sign (no plus
    sign, no white space), then the above. *)
Definition valid_floating_point_number (s : string) : bool :=
  match s with
  | String "-" s' => valid_unsigned s'
  | _ => valid_unsigned s
  end.

(** The value sanitization of an input of type number, as browsers apply
    it: the element's [value] reads as the text in the field when that
    is a valid floating-point number with a finite value, and as the
    empty text otherwise. *)
Definition sanitize (text : string) : string :=
  if (valid_floating_point_number text && isFinite (parseFloat text))%bool
  then text
  else EmptyString.

End HTMLInput.

Import HTMLInput.

(** ** src/NumericInput.tsx *)

Module NumericInput.

(** What the component's code does besides computing: it sets its hook
    state and calls [onChange] and [onBlur]. *)
Inductive action : Type :=
| SetInputValue (text : string)
| OnChange (newValue : number)
| OnBlur (value : number).

Record NumericInputProps : Type := {
  value : number;
  onChange : number -> outcome unit;
  onBlur : option (number -> outcome unit);
  placeholder : option string;
  className : option string
}.

Definition node : Type := vnode action Empty_set.

Definition setInputValue (text : string) : M action unit :=
  perform (SetInputValue text).

Definition handleInputChange (props : NumericInputProps) (e : event)
  : M action unit :=
  let newValue := currentTarget_value e in
  setInputValue newValue ;;
  if negb (isNaN (parseFloat newValue))
  then call (OnChange (parseFloat newValue))
         (onChange props (parseFloat newValue))
  else ret tt.

(** [handleBlur], closed over the [inputValue] of the render that made it. *)
Definition handleBlur (props : NumericInputProps) (inputValue : string)
  : M action unit :=
  match onBlur props with
  | Some callback =>
      call (OnBlur (parseFloat inputValue)) (callback (parseFloat inputValue))
  | None => ret tt
  end.

Section WithToString.
(** [Number.prototype.toString], the string form of a Number. *)
Variable toString : number -> string.

(** One render of [NumericInput] on the hook cell [hook]: the rendered
    tree and the cell afterwards. *)
Definition NumericInput (props : NumericInputProps) (hook : option string)
  : M action (node * option string) :=
  let (inputValue, hook') := useState (toString (value props)) hook in
  ret (VElem "input"
         [("type", PStr "number");
          ("value", PStr inputValue);
          ("onInput", PHandler (handleInputChange props));
          ("onBlur", PHandler (fun _ => handleBlur props inputValue));
          ("placeholder", opt_str (placeholder props));
          ("className", opt_str (className props))]
         [],
       hook').

(** *** The mounted component and the events it receives *)

Record world : Type := {
  props : NumericInputProps;
  inputValue_hook : option string
}.

Definition write (a : action) (w : world) : world :=
  match a with
  | SetInputValue text => {| props := props w; inputValue_hook := Some text |}
  | OnChange _ => w
  | OnBlur _ => w
  end.

Definition commit (l : list action) (w : world) : world :=
  fold_left (fun w a => write a w) l w.

(** DOM events on the input element: an input event at which the
    element's [value] reads [text], and the field losing focus. What the
    element reports for what the user typed is [HTMLInput.sanitize]; the
    handlers are stated for every [text], reportable or not. *)
Inductive interaction : Type :=
| Keystroke (text : string)
| Blur.

(** The listener of the rendered element that an event reaches, run on
    the event; at an input event [e.currentTarget.value] is the text the
    element reads. *)
Definition listener (view : node) (ev : interaction)
  : option (M action unit) :=
  match ev with
  | Keystroke text =>
      match handler_of "onInput" view with
      | Some h => Some (h {| currentTarget_value := text |})
      | None => None
      end
  | Blur =>
      match handler_of "onBlur" view with
      | Some h => Some (h {| currentTarget_value := EmptyString |})
      | None => None
      end
  end.

Record reaction : Type := {
  next : world;
  trace : list action;
  result : outcome unit
}.

(** One event on the mounted component: the listener of the current
    render runs, its state updates are committed, and the host renders
    again. *)
Definition dispatch (w : world) (ev : interaction) : reaction :=
  match NumericInput (props w) (inputValue_hook w) with
  | (_, Returns (view, hook')) =>
      let w' := {| props := props w; inputValue_hook := hook' |} in
      match listener view ev with
      | Some (l, r) => {| next := commit l w'; trace := l; result := r |}
      | None => {| next := w'; trace := []; result := Returns tt |}
      end
  | (_, Throws e) => {| next := w; trace := []; result := Throws e |}
  end.

(** The host renders the mounted component again with new props. *)
Definition rerender (w : world) (props' : NumericInputProps) : reaction :=
  match NumericInput props' (inputValue_hook w) with
  | (l, Returns (_, hook')) =>
      {| next := {| props := props'; inputValue_hook := hook' |};
         trace := l;
         result := Returns tt |}
  | (l, Throws e) => {| next := w; trace := l; result := Throws e |}
  end.

(** The first render: the mounted component. *)
Definition mount (props : NumericInputProps) : reaction :=
  rerender {| props := props; inputValue_hook := None |} props.

(** The text the render gives the field to display: its [value]
    attribute. The element shows it when it is a valid number, which
    every text the element reported is. *)
Definition displayed (w : world) : option string :=
  match NumericInput (props w) (inputValue_hook w) with
  | (_, Returns (view, _)) =>
      match get_prop "value" (props_of view) with
      | Some (PStr text) => Some text
      | _ => None
      end
  | _ => None
  end.

End WithToString.

End NumericInput.

(** ** The inputs of the specification's scenarios *)

Module Scenario.
Import Dropdown.

Definition one : number := S754_finite false 4503599627370496 (-52).
Definition two : number := S754_finite false 4503599627370496 (-51).

(** [{id: 1, name: "A"}] and [{id: 2, name: "B"}]. *)
Definition optionA : DropdownOption :=
  {| id := IdNum one; name := "A"; extra := [] |}.
Definition optionB : DropdownOption :=
  {| id := IdNum two; name := "B"; extra := [] |}.

(** The two options, nothing selected, no placeholder and no custom
    renderer, with an [onSelect] that completes as [callback] says. *)
Definition dropdown_props (callback : option DropdownOption -> outcome unit)
  : DropdownProps Empty_set :=
  {| options := [optionA; optionB];
     selectedOption := Null;
     onSelect := callback;
     placeholder := None;
     renderOption := None |}.

Definition returning : option DropdownOption -> outcome unit :=
  fun _ => Returns tt.

Definition throwing : option DropdownOption -> outcome unit :=
  fun _ => Throws "Error".

(** [value = 5] with both callbacks supplied. *)
Definition five : number := S754_finite false 5629499534213120 (-50).

Definition numeric_props : NumericInput.NumericInputProps :=
  {| NumericInput.value := five;
     NumericInput.onChange := fun _ => Returns tt;
     NumericInput.onBlur := Some (fun _ => Returns tt);
     NumericInput.placeholder := None;
     NumericInput.className := None |}.

End Scenario.

(** ** Sequences of events, with and without a render in between *)

Module NumericInputHost.
Import NumericInput.

(** The arguments of the calls of [onChange] in a log, in order. *)
Definition onChange_args (l : list action) : list number :=
  flat_map (fun a => match a with OnChange n => [n] | _ => [] end) l.

(** The arguments of the calls of [onBlur] in a log, in order. *)
Definition onBlur_args (l : list action) : list number :=
  flat_map (fun a => match a with OnBlur n => [n] | _ => [] end) l.

(** The texts of the keystrokes of a sequence of events, in order. *)
Definition typed (evs : list interaction) : list string :=
  flat_map (fun ev => match ev with Keystroke s => [s] | Blur => [] end) evs.

(** One event on the listeners of a render [view] that may be older than
    the state: the host has not rendered again since. *)
Definition fire (view : node) (w : world) (ev : interaction) : reaction :=
  match listener view ev with
  | Some (l, r) => {| next := commit l w; trace := l; result := r |}
  | None => {| next := w; trace := []; result := Returns tt |}
  end.

(** Several events on the listeners of one render. *)
Fixpoint fire_all (view : node) (w : world) (evs : list interaction)
  : world * list action :=
  match evs with
  | [] => (w, [])
  | ev :: evs' =>
      let r := fire view w ev in
      let (w', l) := fire_all view (next r) evs' in
      (w', (trace r ++ l)%list)
  end.

Section WithToString.
Variable toString : number -> string.

(** A sequence of events, each on the render that follows the one before:
    the final state and everything that was done. *)
Fixpoint run (w : world) (evs : list interaction) : world * list action :=
  match evs with
  | [] => (w, [])
  | ev :: evs' =>
      let r := dispatch toString w ev in
      let (w', l) := run (next r) evs' in
      (w', (trace r ++ l)%list)
  end.

(** The user's keystroke leaves [typed] in the field: the input event
    carries what the element of type number reports for it. *)
Definition type_text (w : world) (typed : string) : reaction :=
  dispatch toString w (Keystroke (sanitize typed)).


(** A sequence of events that all arrive before the host renders again:
    every one reaches the listeners of the current render. *)
Definition batch (w : world) (evs : list interaction) : world * list action :=
  match NumericInput toString (props w) (inputValue_hook w) with
  | (_, Returns (view, hook')) =>
      fire_all view {| props := props w; inputValue_hook := hook' |} evs
  | (_, Throws _) => (w, [])
  end.

End WithToString.

End NumericInputHost.

Module DropdownHost.
Import Dropdown.

(** The arguments of the calls of [onSelect] in a log, in order. *)
Definition selections (l : list action) : list (option DropdownOption) :=
  flat_map (fun a => match a with OnSelect x => [x] | _ => [] end) l.

Section WithElement.
Context {JSXElement : Type}.

(** One event on the listeners of a render [view] that may be older than
    the state: the host has not rendered again since. *)
Definition fire (view : node JSXElement) (w : world JSXElement)
    (ev : interaction) : reaction JSXElement :=
  match listener view ev with
  | Some h =>
      let (l, r) := h {| currentTarget_value := EmptyString |} in
      {| next := commit l w; trace := l; result := r |}
  | None => {| next := w; trace := []; result := Returns tt |}
  end.

(** Several events on the listeners of one render. *)
Fixpoint fire_all (view : node JSXElement) (w : world JSXElement)
    (evs : list interaction) : world JSXElement * list action :=
  match evs with
  | [] => (w, [])
  | ev :: evs' =>
      let r := fire view w ev in
      let (w', l) := fire_all view (next r) evs' in
      (w', (trace r ++ l)%list)
  end.

(** A sequence of events that all arrive before the host renders again:
    every one reaches the listeners of the current render. *)
Definition batch (w : world JSXElement) (evs : list interaction)
  : world JSXElement * list action :=
  match Dropdown (props w) (isOpen_hook w) with
  | (_, Returns (view, hook')) =>
      fire_all view {| props := props w; isOpen_hook := hook' |} evs
  | (_, Throws _) => (w, [])
  end.

(** What the toggle button shows in the render of [w]. *)
Definition toggle_text (w : world JSXElement) : list string :=
  match Dropdown (props w) (isOpen_hook w) with
  | (_, Returns (view, _)) =>
      match find_class "dropdown-toggle" view with
      | Some button => text_of button
      | None => []
      end
  | (_, Throws _) => []
  end.

End WithElement.

End DropdownHost.

(** * Properties *)

(** ** parseFloat on the inputs the specification names *)

Module ParseFloatFacts.

Example parse_5_2 :
  parseFloat "5.2" = S754_finite false 5854679515581645 (-50).
Proof. vm_compute. reflexivity. Qed.

Example parse_3_5x :
  parseFloat "3.5x" = S754_finite false 7881299347898368 (-51)
  /\ parseFloat "3.5x" = parseFloat "3.5".
Proof. split; vm_compute; reflexivity. Qed.

Example parse_12abc : parseFloat "12abc" = parseFloat "12".
Proof. vm_compute. reflexivity. Qed.

Example parse_no_prefix :
  parseFloat "x" = NaN /\ parseFloat "abc" = NaN /\ parseFloat EmptyString = NaN
  /\ parseFloat "-" = NaN /\ parseFloat "." = NaN.
Proof. repeat split; vm_compute; reflexivity. Qed.

Example parse_partial :
  parseFloat "1." = parseFloat "1" /\ parseFloat "1e" = parseFloat "1"
  /\ parseFloat "1.0" = parseFloat "1".
Proof. repeat split; vm_compute; reflexivity. Qed.

Example parse_overflow : parseFloat "1e999" = Infinity.
Proof. vm_compute. reflexivity. Qed.

(** Whatever the sign and the rest of the text, a text whose first
    characters after the sign spell Infinity parses to an infinity. *)
Lemma parse_unsigned_Infinity (neg : bool) (rest : string) :
  parse_unsigned neg ("Infinity" ++ rest) = S754_infinity neg.
Proof. reflexivity. Qed.

End ParseFloatFacts.

(** ** NumericInput *)

Module NumericInputFacts.
Import NumericInput.

Arguments parseFloat : simpl never.

Section WithToString.
Variable toString : number -> string.

(** Every render returns the input element whose [value] is the text of
    the hook cell, or the string form of the [value] prop when the cell
    is still empty; it performs no action. *)
Lemma NumericInput_render (p : NumericInputProps) (hook : option string) :
  let text := match hook with
              | Some t => t
              | None => toString (value p)
              end in
  exists view,
    NumericInput toString p hook = ([], Returns (view, Some text))
    /\ get_prop "value" (props_of view) = Some (PStr text)
    /\ handler_of "onInput" view = Some (handleInputChange p)
    /\ handler_of "onBlur" view = Some (fun _ => handleBlur p text).
Proof.
  destruct hook as [t|]; cbn; eexists; repeat split; reflexivity.
Qed.


Lemma dispatch_Keystroke (w : world) (s : string) :
  dispatch toString w (Keystroke s)
  = let m := handleInputChange (props w) {| currentTarget_value := s |} in
    {| next := {| props := props w; inputValue_hook := Some s |};
       trace := fst m;
       result := snd m |}.
Proof.
  destruct w as [p hook].
  unfold dispatch. cbn [props inputValue_hook].
  destruct (NumericInput_render p hook) as (view & -> & _ & Hin & _).
  cbn [listener]. rewrite Hin.
  unfold handleInputChange. cbn [currentTarget_value].
  destruct (isNaN (parseFloat s)); cbn;
    destruct (onChange p (parseFloat s)); reflexivity.
Qed.

Lemma dispatch_Blur (w : world) :
  dispatch toString w Blur
  = let text :=
      fst (useState (toString (value (props w))) (inputValue_hook w)) in
    {| next := {| props := props w; inputValue_hook := Some text |};
       trace := fst (handleBlur (props w) text);
       result := snd (handleBlur (props w) text) |}.
Proof.
  destruct w as [p hook]. unfold dispatch. cbn [props inputValue_hook].
  destruct hook as [text|]; cbn; unfold handleBlur;
    destruct (onBlur p) as [f|]; cbn; reflexivity.
Qed.

(** A handler completes normally unless the callback it calls throws. *)
Lemma input_handlers_throw_only_from_callback (w : world) (ev : interaction) :
  result (dispatch toString w ev) = Returns tt
  \/ exists n e,
      result (dispatch toString w ev) = Throws e
      /\ (onChange (props w) n = Throws e
          \/ exists callback,
               onBlur (props w) = Some callback /\ callback n = Throws e).
Proof.
  destruct ev as [s|].
  - rewrite dispatch_Keystroke. cbn [result]. unfold handleInputChange.
    cbn [currentTarget_value].
    destruct (isNaN (parseFloat s)); cbn; [left; reflexivity|].
    destruct (onChange (props w) (parseFloat s)) as [[]|e] eqn:Hcb; cbn.
    + left; reflexivity.
    + right. exists (parseFloat s), e. auto.
  - rewrite dispatch_Blur. cbn [result]. unfold handleBlur.
    destruct (onBlur (props w)) as [callback|] eqn:Hb; cbn;
      [|left; reflexivity].
    destruct (callback _) as [[]|e] eqn:Hcb; [left; reflexivity|].
    right. do 2 eexists. split; [reflexivity|]. right. eauto.
Qed.

End WithToString.

(** C1. A keystroke that leaves the text [s] in the field sets the internal
    text state to exactly [s], parseable or not, and the field displays
    [s]; [onChange] is called with [parseFloat s], once, exactly when
    [parseFloat s] is not NaN, and is not called at all otherwise. *)
Theorem keystroke_sets_text_and_reports_parse
    (toString : number -> string) (w : world) (s : string) :
  let r := dispatch toString w (Keystroke s) in
  inputValue_hook (next r) = Some s
  /\ displayed toString (next r) = Some s
  /\ trace r
     = SetInputValue s
       :: (if isNaN (parseFloat s) then [] else [OnChange (parseFloat s)])
  /\ ((exists n, In (OnChange n) (trace r)) <-> isNaN (parseFloat s) = false)
  /\ result r
     = (if isNaN (parseFloat s) then Returns tt
        else onChange (props w) (parseFloat s)).
Proof.
  cbn zeta. rewrite dispatch_Keystroke. cbn [next trace result].
  unfold handleInputChange. cbn [currentTarget_value inputValue_hook].
  destruct (isNaN (parseFloat s)) eqn:Hnan; cbn.
  - repeat split; try reflexivity.
    + intros [n [H|[]]]. discriminate H.
    + discriminate.
  - destruct (onChange (props w) (parseFloat s)) eqn:Hcb; cbn;
      repeat split; try reflexivity;
      try (exists (parseFloat s); right; left; reflexivity).
Qed.

(** C3. When the field whose internal text is [text] loses focus, a
    supplied [onBlur] is called once, with [parseFloat text], also when
    that is NaN; the handler completes the way the callback does, so it
    throws nothing of its own, and without a callback it does nothing.
    The text is left as it was. *)
Theorem blur_reports_parse_of_text
    (toString : number -> string) (p : NumericInputProps) (text : string) :
  let w := {| props := p; inputValue_hook := Some text |} in
  let r := dispatch toString w Blur in
  next r = w
  /\ match onBlur p with
     | Some callback =>
         trace r = [OnBlur (parseFloat text)]
         /\ result r = callback (parseFloat text)
     | None => trace r = [] /\ result r = Returns tt
     end.
Proof.
  cbn zeta. rewrite dispatch_Blur.
  cbn [next trace result props inputValue_hook useState fst].
  unfold handleBlur.
  destruct (onBlur p) as [callback|]; cbn; repeat split; reflexivity.
Qed.

(** The two blurs of the specification: the text 3.5x reports 3.5, the
    text x reports NaN. *)
Example blur_examples
    (toString : number -> string) (p : NumericInputProps)
    (callback : number -> outcome unit) :
  onBlur p = Some callback ->
  trace (dispatch toString {| props := p; inputValue_hook := Some "3.5x" |}
           Blur)
  = [OnBlur (parseFloat "3.5")]
  /\ trace (dispatch toString {| props := p; inputValue_hook := Some "x" |}
              Blur)
     = [OnBlur NaN].
Proof.
  intros Hcb. rewrite !dispatch_Blur.
  cbn [trace props inputValue_hook useState fst].
  unfold handleBlur. rewrite Hcb. split; reflexivity.
Qed.

(** The scenario of the specification: the value is 5, the user types 5.2
    and [onChange] receives 5.2; the user leaves the field and [onBlur]
    receives 5.2. *)
Example scenario_type_then_blur (toString : number -> string) :
  let w0 := next (mount toString Scenario.numeric_props) in
  let r1 := dispatch toString w0 (Keystroke "5.2") in
  let r2 := dispatch toString (next r1) Blur in
  displayed toString w0 = Some (toString Scenario.five)
  /\ trace r1 = [SetInputValue "5.2"; OnChange (parseFloat "5.2")]
  /\ displayed toString (next r1) = Some "5.2"
  /\ trace r2 = [OnBlur (parseFloat "5.2")]
  /\ displayed toString (next r2) = Some "5.2".
Proof.
  cbn zeta. rewrite dispatch_Blur, dispatch_Keystroke.
  replace (parseFloat "5.2")
    with (S754_finite false 5854679515581645 (-50))
    by (vm_compute; reflexivity).
  unfold handleInputChange. cbn [currentTarget_value].
  replace (parseFloat "5.2")
    with (S754_finite false 5854679515581645 (-50))
    by (vm_compute; reflexivity).
  repeat split.
Qed.

(** C9. The first render seeds the internal text from the string form of
    the [value] prop. A later render with other props leaves the text
    and what the field displays as they were and performs no action, and
    so does a blur: only a keystroke changes the displayed text. *)
Theorem value_prop_seeds_text_at_first_render_only
    (toString : number -> string) (p p' : NumericInputProps)
    (text : string) :
  (let r := mount toString p in
   next r = {| props := p; inputValue_hook := Some (toString (value p)) |}
   /\ trace r = []
   /\ displayed toString (next r) = Some (toString (value p)))
  /\ (let r := rerender toString
                 {| props := p; inputValue_hook := Some text |} p' in
      next r = {| props := p'; inputValue_hook := Some text |}
      /\ trace r = []
      /\ result r = Returns tt
      /\ displayed toString (next r) = Some text)
  /\ displayed toString
       (next (dispatch toString
                {| props := p; inputValue_hook := Some text |} Blur))
     = Some text.
Proof.
  repeat split; try reflexivity.
  rewrite dispatch_Blur. reflexivity.
Qed.




End NumericInputFacts.

(** ** Dropdown *)

Module DropdownFacts.
Import Dropdown.

Section WithElement.
Context {JSXElement : Type}.
Implicit Types (p : DropdownProps JSXElement) (w : world JSXElement).

(** The button never throws: the name of the selected option is read only
    when there is one. *)
Lemma DropdownButton_returns
    (so : nullable DropdownOption) (ph : option string)
    (toggle : M action unit) (set : bool -> M action unit) :
  DropdownButton (JSXElement := JSXElement) so ph toggle set
  = ([], Returns
           (VElem "button"
              [("className", PStr "dropdown-toggle");
               ("onClick", PHandler (fun _ => toggle));
               ("onBlur", PHandler (fun _ => set false))]
              [VElem "div" [("className", PStr "select-dropdown-title")]
                 [VElem "div" [("id", PStr "dropdown-title")]
                    [opt_text match so with
                              | Obj o => Some (name o)
                              | _ => ph
                              end]]])).
Proof. destruct so; reflexivity. Qed.

(** Every render returns, performs no action, and leaves in the cell the
    state it read: closed on the first render. *)
Lemma Dropdown_render p (hook : option bool) :
  Dropdown p hook
  = ([], Returns
           (VElem "div" [("className", PStr "dropdown-comp")]
              [VElem "div" [("className", PStr "dropdown-wrapper")]
                 [VElem "button"
                    [("className", PStr "dropdown-toggle");
                     ("onClick",
                      PHandler (fun _ =>
                                  toggleDropdown (fst (useState false hook))));
                     ("onBlur", PHandler (fun _ => setIsOpen false))]
                    [VElem "div" [("className", PStr "select-dropdown-title")]
                       [VElem "div" [("id", PStr "dropdown-title")]
                          [opt_text
                             match selectedOption p with
                             | Obj o => Some (name o)
                             | _ => Some match placeholder p with
                                         | Some s => s
                                         | None => "Select an option"
                                         end
                             end]]];
                  if fst (useState false hook)
                  then DropdownMenu (options p) (handleSelect p)
                         (renderOption p)
                  else VEmpty]],
            Some (fst (useState false hook)))).
Proof.
  unfold Dropdown. destruct hook as [b|]; cbn [useState fst];
    rewrite DropdownButton_returns; reflexivity.
Qed.

(** The toggle button is found whatever it shows, and so are its listeners. *)
Lemma listener_toggle p (hook : option bool) (view : node JSXElement)
    (hook' : option bool) :
  Dropdown p hook = ([], Returns (view, hook')) ->
  listener view ClickToggle
  = Some (fun _ => toggleDropdown (fst (useState false hook)))
  /\ listener view BlurToggle = Some (fun _ => setIsOpen false).
Proof.
  rewrite Dropdown_render. intros H. injection H as <- _.
  split; reflexivity.
Qed.

(** The menu is in the tree exactly when the state is open, and its
    [i]-th item listens for [mousedown]. *)
Lemma listener_item p (hook : option bool) (view : node JSXElement)
    (hook' : option bool) (i : nat) :
  Dropdown p hook = ([], Returns (view, hook')) ->
  listener view (MouseDownItem i)
  = if fst (useState false hook)
    then option_map
           (fun opt (_ : event) => perform PreventDefault ;; handleSelect p opt)
           (nth_error (options p) i)
    else None.
Proof.
  rewrite Dropdown_render. intros H. injection H as <- _.
  destruct (fst (useState false hook));
    destruct (selectedOption p); destruct (placeholder p); cbn;
    try reflexivity;
    rewrite nth_error_map; destruct (nth_error (options p) i); reflexivity.
Qed.

Lemma shows_menu_iff_open p (hook : option bool) (view : node JSXElement)
    (hook' : option bool) :
  Dropdown p hook = ([], Returns (view, hook')) ->
  shows_menu view = fst (useState false hook).
Proof.
  rewrite Dropdown_render. intros H. injection H as <- _.
  destruct (fst (useState false hook));
    destruct (selectedOption p); destruct (placeholder p); reflexivity.
Qed.

Lemma dispatch_ClickToggle w :
  dispatch w ClickToggle
  = {| next := {| props := props w;
                  isOpen_hook :=
                    Some (negb (fst (useState false (isOpen_hook w)))) |};
       trace := [SetIsOpen (negb (fst (useState false (isOpen_hook w))))];
       result := Returns tt |}.
Proof.
  unfold dispatch.
  destruct (listener_toggle (props w) (isOpen_hook w) _ _
              (Dropdown_render _ _)) as [Hc _].
  rewrite Dropdown_render at 1. rewrite Hc. reflexivity.
Qed.

Lemma dispatch_BlurToggle w :
  dispatch w BlurToggle
  = {| next := {| props := props w; isOpen_hook := Some false |};
       trace := [SetIsOpen false];
       result := Returns tt |}.
Proof.
  unfold dispatch.
  destruct (listener_toggle (props w) (isOpen_hook w) _ _
              (Dropdown_render _ _)) as [_ Hb].
  rewrite Dropdown_render at 1. rewrite Hb. reflexivity.
Qed.

(** A press on an item of the open menu: the default action is canceled,
    then [onSelect] is called, and only when it has returned is the state
    set to closed. *)
Lemma dispatch_MouseDownItem_open p (i : nat) (o : DropdownOption) :
  nth_error (options p) i = Some o ->
  dispatch {| props := p; isOpen_hook := Some true |} (MouseDownItem i)
  = match onSelect p (Some o) with
    | Returns _ =>
        {| next := {| props := p; isOpen_hook := Some false |};
           trace := [PreventDefault; OnSelect (Some o); SetIsOpen false];
           result := Returns tt |}
    | Throws e =>
        {| next := {| props := p; isOpen_hook := Some true |};
           trace := [PreventDefault; OnSelect (Some o)];
           result := Throws e |}
    end.
Proof.
  intros Hnth. unfold dispatch. cbn [props isOpen_hook].
  pose proof (listener_item p (Some true) _ _ i (Dropdown_render _ _)) as Hl.
  rewrite Dropdown_render, Hl. cbn [useState fst]. rewrite Hnth.
  cbn [option_map]. unfold handleSelect.
  destruct (onSelect p (Some o)) as [[]|e]; reflexivity.
Qed.

(** A press where no item is: the menu is not shown, or has fewer items. *)
Lemma dispatch_MouseDownItem_nothing w (i : nat) :
  fst (useState false (isOpen_hook w)) = false
  \/ nth_error (options (props w)) i = None ->
  dispatch w (MouseDownItem i)
  = {| next := {| props := props w;
                  isOpen_hook := Some (fst (useState false (isOpen_hook w))) |};
       trace := [];
       result := Returns tt |}.
Proof.
  intros H. unfold dispatch.
  pose proof (listener_item (props w) (isOpen_hook w) _ _ i
                (Dropdown_render _ _)) as Hl.
  rewrite Dropdown_render, Hl.
  destruct H as [-> | ->]; [reflexivity|].
  destruct (fst (useState false (isOpen_hook w))); reflexivity.
Qed.

(** A log without an assignment to an option leaves the props as they
    were. *)
Lemma commit_props (l : list action) w :
  Forall (fun a => match a with Assign _ _ => False | _ => True end) l ->
  props (commit l w) = props w.
Proof.
  intros Hl. revert w. induction Hl as [|a l Ha _ IH]; intros w;
    [reflexivity|].
  change (commit (a :: l) w) with (commit l (write a w)).
  rewrite IH. destruct a; [reflexivity..|contradiction].
Qed.

(** Whatever the event, its listener assigns to no option, the props are
    afterwards what they were, and [onSelect] is called on options of the
    supplied list only. *)
Lemma dispatch_frame w (ev : interaction) :
  props (next (dispatch w ev)) = props w
  /\ Forall (fun a => match a with
                      | OnSelect x =>
                          exists o, x = Some o /\ In o (options (props w))
                      | Assign _ _ => False
                      | _ => True
                      end)
       (trace (dispatch w ev)).
Proof.
  destruct ev as [| |i].
  - rewrite dispatch_ClickToggle. cbn. auto.
  - rewrite dispatch_BlurToggle. cbn. auto.
  - destruct w as [p hook].
    destruct (fst (useState false hook)) eqn:Hopen.
    + destruct (nth_error (options p) i) as [o|] eqn:Hnth.
      * assert (hook = Some true) as ->
          by (destruct hook as [[]|]; cbn in Hopen; congruence).
        rewrite (dispatch_MouseDownItem_open p i o Hnth).
        assert (In o (options p)) by (eapply nth_error_In; eassumption).
        destruct (onSelect p (Some o)); cbn; split; try reflexivity;
          repeat constructor; exists o; auto.
      * rewrite dispatch_MouseDownItem_nothing by (right; exact Hnth).
        cbn. auto.
    + rewrite dispatch_MouseDownItem_nothing by (left; exact Hopen).
      cbn. auto.
Qed.

(** A handler completes normally unless [onSelect] throws. *)
Lemma dropdown_handlers_throw_only_from_callback w (ev : interaction) :
  result (dispatch w ev) = Returns tt
  \/ exists o e,
      onSelect (props w) (Some o) = Throws e
      /\ result (dispatch w ev) = Throws e.
Proof.
  destruct ev as [| |i].
  - rewrite dispatch_ClickToggle. left; reflexivity.
  - rewrite dispatch_BlurToggle. left; reflexivity.
  - destruct w as [p hook].
    destruct (fst (useState false hook)) eqn:Hopen.
    + destruct (nth_error (options p) i) as [o|] eqn:Hnth.
      * assert (hook = Some true) as ->
          by (destruct hook as [[]|]; cbn in Hopen; congruence).
        rewrite (dispatch_MouseDownItem_open p i o Hnth). cbn [props].
        destruct (onSelect p (Some o)) as [[]|e] eqn:Hcb;
          [left; reflexivity|].
        right. exists o, e. auto.
      * rewrite dispatch_MouseDownItem_nothing by (right; exact Hnth).
        left; reflexivity.
    + rewrite dispatch_MouseDownItem_nothing by (left; exact Hopen).
      left; reflexivity.
Qed.

End WithElement.

(** C2, as the code has it. Selecting the option [o] from the open menu
    calls [onSelect] on [o] once, before any state update. When the
    callback returns, the state is then set to closed; when it throws, the
    exception leaves the handler, the state is not set and the menu stays
    open. *)
Theorem selection_calls_onSelect_then_closes
    {JSXElement : Type} (p : DropdownProps JSXElement)
    (i : nat) (o : DropdownOption) :
  nth_error (options p) i = Some o ->
  let r := dispatch {| props := p; isOpen_hook := Some true |}
             (MouseDownItem i) in
  trace r
  = PreventDefault :: OnSelect (Some o)
      :: match onSelect p (Some o) with
         | Returns _ => [SetIsOpen false]
         | Throws _ => []
         end
  /\ result r
     = match onSelect p (Some o) with
       | Returns _ => Returns tt
       | Throws e => Throws e
       end
  /\ next r
     = {| props := p;
          isOpen_hook := match onSelect p (Some o) with
                         | Returns _ => Some false
                         | Throws _ => Some true
                         end |}.
Proof.
  intros Hnth. cbn zeta. rewrite (dispatch_MouseDownItem_open p i o Hnth).
  destruct (onSelect p (Some o)); repeat split; reflexivity.
Qed.

Lemma selection_calls_onSelect_then_closes_witness :
  nth_error (options (Scenario.dropdown_props Scenario.returning)) 1
  = Some Scenario.optionB
  /\ trace (dispatch {| props := Scenario.dropdown_props Scenario.returning;
                        isOpen_hook := Some true |} (MouseDownItem 1))
     = [PreventDefault; OnSelect (Some Scenario.optionB); SetIsOpen false].
Proof.
  split; [reflexivity|].
  exact (proj1 (selection_calls_onSelect_then_closes
                  (Scenario.dropdown_props Scenario.returning) 1
                  Scenario.optionB eq_refl)).
Defined.

(** C2, as the specification states it, fails: with an [onSelect] that
    throws, selecting B from the open menu calls the callback and leaves
    the menu open. *)
Lemma selection_with_throwing_callback_stays_open :
  let r := dispatch {| props := Scenario.dropdown_props Scenario.throwing;
                       isOpen_hook := Some true |} (MouseDownItem 1) in
  trace r = [PreventDefault; OnSelect (Some Scenario.optionB)]
  /\ result r = Throws "Error"
  /\ isOpen_hook (next r) = Some true
  /\ isOpen_hook (next r) <> Some false.
Proof. cbn. repeat split; try reflexivity. discriminate. Qed.

(** C4. The first render leaves the state closed and shows no menu. A
    click on the toggle button opens a closed dropdown and closes an open
    one; the toggle button losing focus closes an open one; the menu is
    shown exactly in the open state; and neither event calls [onSelect],
    in any state. *)
Theorem toggle_state_machine
    {JSXElement : Type} (p : DropdownProps JSXElement) :
  (exists view,
      mount p = ([], Returns (view, Some false)) /\ shows_menu view = false)
  /\ (forall b : bool,
        let r := dispatch {| props := p; isOpen_hook := Some b |} ClickToggle in
        next r = {| props := p; isOpen_hook := Some (negb b) |}
        /\ trace r = [SetIsOpen (negb b)]
        /\ result r = Returns tt)
  /\ (let r := dispatch {| props := p; isOpen_hook := Some true |}
                 BlurToggle in
      next r = {| props := p; isOpen_hook := Some false |}
      /\ trace r = [SetIsOpen false]
      /\ result r = Returns tt)
  /\ (forall b : bool,
        exists view,
          Dropdown p (Some b) = ([], Returns (view, Some b))
          /\ shows_menu view = b)
  /\ (forall (w : world JSXElement) (x : option DropdownOption),
        ~ In (OnSelect x) (trace (dispatch w ClickToggle))
        /\ ~ In (OnSelect x) (trace (dispatch w BlurToggle))).
Proof.
  split; [|split; [|split; [|split]]].
  - unfold mount. eexists. split; [apply Dropdown_render|].
    apply (shows_menu_iff_open p None _ _ (Dropdown_render _ _)).
  - intros b. cbn zeta. rewrite dispatch_ClickToggle. cbn.
    repeat split; reflexivity.
  - cbn zeta. rewrite dispatch_BlurToggle. cbn. repeat split; reflexivity.
  - intros b. eexists. split; [apply Dropdown_render|].
    apply (shows_menu_iff_open p (Some b) _ _ (Dropdown_render _ _)).
  - intros w x. rewrite dispatch_ClickToggle, dispatch_BlurToggle. cbn.
    split; intros [H|[]]; discriminate H.
Qed.

(** C5. A pointer press on an item of the open menu, with the toggle button
    focused or not: the item's [mousedown] listener cancels the default
    action before anything else, so the focus stays where it was and no
    [blur] reaches the toggle button; [onSelect] is called on the option,
    once. *)
Theorem selection_wins_over_blur_close
    {JSXElement : Type} (p : DropdownProps JSXElement) (focused : bool)
    (i : nat) (o : DropdownOption) :
  nth_error (options p) i = Some o ->
  let pr := press_item
              {| mounted := {| props := p; isOpen_hook := Some true |};
                 toggle_focused := focused |} i in
  delivered pr = [MouseDownItem i]
  /\ toggle_focused (page_after pr) = focused
  /\ done pr
     = PreventDefault :: OnSelect (Some o)
         :: match onSelect p (Some o) with
            | Returns _ => [SetIsOpen false]
            | Throws _ => []
            end.
Proof.
  intros Hnth. unfold press_item. cbn [mounted toggle_focused].
  rewrite (dispatch_MouseDownItem_open p i o Hnth).
  destruct (onSelect p (Some o)); cbn; repeat split; reflexivity.
Qed.

Lemma selection_wins_over_blur_close_witness :
  nth_error (options (Scenario.dropdown_props Scenario.returning)) 1
  = Some Scenario.optionB
  /\ let pr := press_item
                 {| mounted :=
                      {| props := Scenario.dropdown_props Scenario.returning;
                         isOpen_hook := Some true |};
                    toggle_focused := true |} 1 in
     delivered pr = [MouseDownItem 1]
     /\ toggle_focused (page_after pr) = true
     /\ done pr
        = [PreventDefault; OnSelect (Some Scenario.optionB); SetIsOpen false].
Proof.
  split; [reflexivity|].
  exact (selection_wins_over_blur_close
           (Scenario.dropdown_props Scenario.returning) true 1
           Scenario.optionB eq_refl).
Defined.

(** The competing close: a press that no listener cancels takes the focus
    from the toggle button, which closes the menu without a selection. *)
Lemma press_off_the_items_blurs_and_closes
    {JSXElement : Type} (p : DropdownProps JSXElement) (i : nat) :
  nth_error (options p) i = None ->
  let pr := press_item
              {| mounted := {| props := p; isOpen_hook := Some true |};
                 toggle_focused := true |} i in
  delivered pr = [MouseDownItem i; BlurToggle]
  /\ done pr = [SetIsOpen false]
  /\ page_after pr
     = {| mounted := {| props := p; isOpen_hook := Some false |};
          toggle_focused := false |}.
Proof.
  intros Hnth. unfold press_item. cbn [mounted toggle_focused].
  rewrite dispatch_MouseDownItem_nothing by (right; exact Hnth).
  cbn [trace next canceled existsb orb negb].
  rewrite dispatch_BlurToggle. cbn. repeat split; reflexivity.
Qed.

(** C6. The open dropdown shows the toggle button and the menu; the menu
    has one item per supplied option, in the order supplied, keyed by the
    option's [id]; an item shows what the custom renderer returns for its
    option when there is a renderer, and the option's name otherwise. *)
Theorem menu_lists_options_in_order
    {JSXElement : Type} (p : DropdownProps JSXElement) :
  exists view button menu,
    Dropdown p (Some true) = ([], Returns (view, Some true))
    /\ find_class "dropdown-toggle" view = Some button
    /\ find_class "dropdown-menu" view = Some menu
    /\ map children_of (children_of menu)
       = map (fun o => [match renderOption p with
                        | Some render => VForeign (render o)
                        | None => VText (name o)
                        end])
           (options p)
    /\ map (fun item => get_prop "key" (props_of item)) (children_of menu)
       = map (fun o => Some (key_of (id o))) (options p)
    /\ List.length (children_of menu) = List.length (options p).
Proof.
  do 3 eexists. split; [apply Dropdown_render|].
  cbn [useState fst].
  split; [reflexivity|].
  split; [destruct (selectedOption p), (placeholder p); reflexivity|].
  cbn [DropdownMenu children_of].
  rewrite !map_map, length_map. cbn [children_of props_of get_prop].
  repeat split; try reflexivity.
Qed.

(** The scenario of the specification: opening reveals A, then B. *)
Example scenario_menu :
  exists view menu,
    Dropdown (Scenario.dropdown_props Scenario.returning) (Some true)
    = ([], Returns (view, Some true))
    /\ find_class "dropdown-menu" view = Some menu
    /\ text_of menu = ["A"; "B"].
Proof. do 2 eexists. repeat split. Qed.

(** The scenario of the specification, from the first render on: nothing is
    selected and the toggle button shows the placeholder; a click opens
    the menu; selecting B calls [onSelect] on B and closes it. *)
Example scenario_open_then_select :
  let p := Scenario.dropdown_props Scenario.returning in
  (exists view button,
      mount p = ([], Returns (view, Some false))
      /\ find_class "dropdown-toggle" view = Some button
      /\ text_of button = ["Select an option"])
  /\ run {| props := p; isOpen_hook := Some false |}
         [ClickToggle; MouseDownItem 1]
     = ({| props := p; isOpen_hook := Some false |},
        [SetIsOpen true; PreventDefault; OnSelect (Some Scenario.optionB);
         SetIsOpen false]).
Proof. split; [do 2 eexists; repeat split|reflexivity]. Qed.

(** C8. No render and no listener of the dropdown assigns to an option
    object. Whatever the sequence of events on a mounted dropdown
    (opening, closing, selecting, with a render after each), the log of
    what the component did holds no assignment to an option, so the
    supplied options, and every field of each, are afterwards what they
    were; every call of [onSelect] passes an option of the supplied list;
    and a render performs no action at all. *)
Theorem options_never_mutated
    {JSXElement : Type} (w : world JSXElement) (evs : list interaction) :
  Forall (fun a => match a with Assign _ _ => False | _ => True end)
    (snd (run w evs))
  /\ props (fst (run w evs)) = props w
  /\ options (props (fst (run w evs))) = options (props w)
  /\ Forall (fun a => match a with
                      | OnSelect x =>
                          exists o, x = Some o /\ In o (options (props w))
                      | _ => True
                      end)
       (snd (run w evs))
  /\ (forall hook : option bool, fst (Dropdown (props w) hook) = []).
Proof.
  assert (Hrun : props (fst (run w evs)) = props w
                 /\ Forall (fun a => match a with
                                     | OnSelect x =>
                                         exists o, x = Some o
                                                   /\ In o (options (props w))
                                     | Assign _ _ => False
                                     | _ => True
                                     end)
                      (snd (run w evs))).
  { revert w. induction evs as [|ev evs IH]; intros w.
    - cbn. auto.
    - cbn [run].
      destruct (dispatch_frame w ev) as [Hp Ht].
      specialize (IH (next (dispatch w ev))).
      destruct (run (next (dispatch w ev)) evs) as [w' l].
      cbn [fst snd] in *. destruct IH as [IHp IHt].
      split; [congruence|].
      apply Forall_app. split; [exact Ht|].
      rewrite Hp in IHt. exact IHt. }
  destruct Hrun as [Hp Ht].
  split; [|split; [exact Hp|split; [now rewrite Hp|split]]].
  - eapply Forall_impl; [|exact Ht]. intros [v| |x|i f]; auto.
  - eapply Forall_impl; [|exact Ht]. intros [v| |x|i f]; auto.
  - intros hook. rewrite Dropdown_render. reflexivity.
Qed.

(** An assignment in a log does reach the caller's options: the frame
    above is a fact about the component's listeners, not about the
    log. *)
Example assignment_changes_the_options :
  options
    (props (commit [Assign 0 (fun o => {| id := id o; name := "changed";
                                          extra := extra o |})]
              {| props := Scenario.dropdown_props Scenario.returning;
                 isOpen_hook := Some true |}))
  = [{| id := IdNum Scenario.one; name := "changed"; extra := [] |};
     Scenario.optionB].
Proof. reflexivity. Qed.

End DropdownFacts.

(** ** Both components *)

Module ComponentFacts.

(** C7. A [selectedOption] that is [null] or absent is valid: the render
    returns and the toggle button shows the placeholder, the default one
    when none was passed. No render of either component throws, and a
    handler of either component completes normally unless the callback it
    calls throws: no exception comes from the components themselves. *)
Theorem null_selection_shows_placeholder_and_components_do_not_throw
    {JSXElement : Type} (toString : number -> string) :
  (forall (opts : list Dropdown.DropdownOption)
          (callback : option Dropdown.DropdownOption -> outcome unit)
          (ph : option string)
          (renderer : option (Dropdown.DropdownOption -> JSXElement))
          (hook : option bool) (absent : bool),
      exists view button,
        Dropdown.Dropdown
          {| Dropdown.options := opts;
             Dropdown.selectedOption := if absent then Undefined else Null;
             Dropdown.onSelect := callback;
             Dropdown.placeholder := ph;
             Dropdown.renderOption := renderer |} hook
        = ([], Returns (view, Some (fst (useState false hook))))
        /\ find_class "dropdown-toggle" view = Some button
        /\ text_of button
           = [match ph with
              | Some s => s
              | None => "Select an option"
              end])
  /\ (forall (p : Dropdown.DropdownProps JSXElement) (hook : option bool),
        exists view hook', Dropdown.Dropdown p hook = ([], Returns (view, hook')))
  /\ (forall (w : Dropdown.world JSXElement) (ev : Dropdown.interaction),
        Dropdown.result (Dropdown.dispatch w ev) = Returns tt
        \/ exists o e,
            Dropdown.onSelect (Dropdown.props w) (Some o) = Throws e
            /\ Dropdown.result (Dropdown.dispatch w ev) = Throws e)
  /\ (forall (q : NumericInput.NumericInputProps) (cell : option string),
        exists view cell',
          NumericInput.NumericInput toString q cell
          = ([], Returns (view, cell')))
  /\ (forall (w : NumericInput.world) (ev : NumericInput.interaction),
        NumericInput.result (NumericInput.dispatch toString w ev) = Returns tt
        \/ exists n e,
            NumericInput.result (NumericInput.dispatch toString w ev)
            = Throws e
            /\ (NumericInput.onChange (NumericInput.props w) n = Throws e
                \/ exists callback,
                     NumericInput.onBlur (NumericInput.props w) = Some callback
                     /\ callback n = Throws e)).
Proof.
  split; [|split; [|split; [|split]]].
  - intros opts callback ph renderer hook absent.
    do 2 eexists. split; [apply DropdownFacts.Dropdown_render|].
    cbn [Dropdown.selectedOption Dropdown.placeholder].
    destruct absent; split; reflexivity.
  - intros p hook. do 2 eexists. apply DropdownFacts.Dropdown_render.
  - apply DropdownFacts.dropdown_handlers_throw_only_from_callback.
  - intros q cell.
    destruct (NumericInputFacts.NumericInput_render toString q cell)
      as (view & H & _).
    eauto.
  - apply NumericInputFacts.input_handlers_throw_only_from_callback.
Qed.

(** The toggle button shows the name of a selected option. *)
Lemma selected_option_shows_its_name
    {JSXElement : Type} (p : Dropdown.DropdownProps JSXElement)
    (o : Dropdown.DropdownOption) (hook : option bool) :
  Dropdown.selectedOption p = Obj o ->
  exists view button,
    Dropdown.Dropdown p hook
    = ([], Returns (view, Some (fst (useState false hook))))
    /\ find_class "dropdown-toggle" view = Some button
    /\ text_of button = [Dropdown.name o].
Proof.
  intros Hsel. do 2 eexists. split; [apply DropdownFacts.Dropdown_render|].
  rewrite Hsel. split; reflexivity.
Qed.

End ComponentFacts.

(** * Further properties *)

From Stdlib Require Import Lia.

(** ** Rounding never yields NaN *)

Module NumberFacts.
Local Open Scope Z_scope.

Lemma shr_1_nonneg (mrs : shr_record) :
  0 <= shr_m mrs -> 0 <= shr_m (shr_1 mrs).
Proof.
  destruct mrs as [m r s]. cbn [shr_m].
  destruct m as [|[p|p|]|[p|p|]]; cbn; lia.
Qed.

Lemma iter_shr_1_nonneg (n : positive) :
  forall mrs, 0 <= shr_m mrs -> 0 <= shr_m (iter_pos shr_1 n mrs).
Proof.
  induction n as [n IH|n IH|]; intros mrs H; cbn [iter_pos].
  - apply IH, IH, shr_1_nonneg, H.
  - apply IH, IH, H.
  - apply shr_1_nonneg, H.
Qed.

Lemma shr_fexp_nonneg (m e : Z) (l : location) :
  0 <= m -> 0 <= shr_m (fst (shr_fexp prec emax m e l)).
Proof.
  intros H. unfold shr_fexp, shr.
  assert (Hm : 0 <= shr_m (shr_record_of_loc m l))
    by (destruct l as [|[]]; exact H).
  destruct (fexp prec emax (Zdigits2 m + e) - e); cbn [fst]; auto.
  apply iter_shr_1_nonneg, Hm.
Qed.

Lemma round_nearest_even_nonneg (m : Z) (l : location) :
  0 <= m -> 0 <= round_nearest_even m l.
Proof.
  intros H. destruct l as [|[]]; cbn; try lia.
  destruct (Z.even m); lia.
Qed.

Lemma binary_round_aux_not_NaN (sx : bool) (mx ex : Z) (lx : location) :
  0 <= mx -> isNaN (binary_round_aux prec emax sx mx ex lx) = false.
Proof.
  intros H. unfold binary_round_aux.
  pose proof (shr_fexp_nonneg mx ex lx H) as H1.
  destruct (shr_fexp prec emax mx ex lx) as [mrs' e']. cbn [fst] in H1.
  pose proof (shr_fexp_nonneg _ e' loc_Exact
                (round_nearest_even_nonneg _ (loc_of_shr_record mrs') H1))
    as H2.
  destruct (shr_fexp prec emax _ e' loc_Exact) as [mrs'' e'']. cbn [fst] in H2.
  destruct (shr_m mrs'') as [|m|m]; try reflexivity.
  - destruct (e'' <=? emax - prec); reflexivity.
  - lia.
Qed.

(** The Number value of a decimal is a zero, a finite value or an
    infinity. *)
Lemma round_decimal_not_NaN (neg : bool) (m e : Z) :
  isNaN (round_decimal neg m e) = false.
Proof.
  unfold round_decimal.
  destruct m as [|p|p]; try reflexivity.
  destruct e as [|q|q].
  - destruct (Z.pos p * 10 ^ 0); try reflexivity.
    unfold binary_round. destruct (shl_align _ _ _) as [mz ez].
    apply binary_round_aux_not_NaN. lia.
  - destruct (Z.pos p * 10 ^ Z.pos q); try reflexivity.
    unfold binary_round. destruct (shl_align _ _ _) as [mz ez].
    apply binary_round_aux_not_NaN. lia.
  - unfold SFdiv_core_binary.
    set (m' := match _ with Z0 => Z.pos p | Zpos _ => _ | Zneg _ => 0 end).
    assert (Hm' : 0 <= m').
    { subst m'. destruct (_ - _ - _); try lia. apply Z.shiftl_nonneg. lia. }
    assert (Hd : 0 < Z.pow_pos 10 q).
    { rewrite Z.pow_pos_fold. apply Z.pow_pos_nonneg; lia. }
    pose proof (Z.div_pos m' (Z.pow_pos 10 q) Hm' Hd) as Hq.
    unfold Z.div in Hq.
    destruct (Z.div_eucl m' (Z.pow_pos 10 q)) as [qq rr].
    apply binary_round_aux_not_NaN. exact Hq.
Qed.

End NumberFacts.

(** ** What parseFloat accepts *)

Module ParseFacts.

(** Case analysis on the eight bits of a character. *)
Ltac bits c :=
  let b0 := fresh in let b1 := fresh in let b2 := fresh in
  let b3 := fresh in let b4 := fresh in let b5 := fresh in
  let b6 := fresh in let b7 := fresh in
  destruct c as [b0 b1 b2 b3 b4 b5 b6 b7];
  destruct b0, b1, b2, b3, b4, b5, b6, b7.

Ltac by_bits c := bits c; try reflexivity; try discriminate.

Lemma digit_not_white (c : ascii) : is_digit c = true -> is_white c = false.
Proof. by_bits c. Qed.

Lemma digit_not_I (c : ascii) : is_digit c = true -> Ascii.eqb "I" c = false.
Proof. by_bits c. Qed.

Lemma take_sign_other (c : ascii) (s : string) :
  c <> "+"%char -> c <> "-"%char -> take_sign (String c s) = (false, String c s).
Proof.
  intros Hp Hm.
  bits c; try reflexivity;
    exfalso; (apply Hp; reflexivity) || (apply Hm; reflexivity).
Qed.

Lemma digit_not_sign (c : ascii) :
  is_digit c = true -> c <> "+"%char /\ c <> "-"%char.
Proof. by_bits c; intros _; split; discriminate. Qed.

Lemma digit_not_dot_nor_e (c : ascii) :
  is_digit c = true ->
  c <> "."%char /\ Ascii.eqb c "e" = false /\ Ascii.eqb c "E" = false.
Proof. by_bits c; intros _; repeat split; discriminate. Qed.

(** A text that starts with a digit has a numeric prefix. *)
Lemma parse_unsigned_digit (neg : bool) (c : ascii) (s : string) :
  is_digit c = true -> isNaN (parse_unsigned neg (String c s)) = false.
Proof.
  intros Hd. unfold parse_unsigned.
  cbn [strip_prefix]. rewrite (digit_not_I c Hd).
  cbn [take_digits]. rewrite Hd.
  destruct (take_digits s) as [ds r1].
  destruct r1 as [|d r1'].
  - apply NumberFacts.round_decimal_not_NaN.
  - assert (Hdot : forall X Y : number,
               isNaN X = false -> isNaN Y = false ->
               isNaN (match d with
                      | "."%char => X
                      | _ => Y
                      end) = false).
    { intros X Y HX HY.
      bits d; assumption. }
    apply Hdot.
    + destruct (take_digits r1') as [fracd r2]. cbn [app].
      apply NumberFacts.round_decimal_not_NaN.
    + apply NumberFacts.round_decimal_not_NaN.
Qed.

Lemma parseFloat_digit (c : ascii) (s : string) :
  is_digit c = true -> isNaN (parseFloat (String c s)) = false.
Proof.
  intros Hd. unfold parseFloat. cbn [trim_start].
  rewrite (digit_not_white c Hd).
  destruct (digit_not_sign c Hd) as [Hp Hm].
  rewrite (take_sign_other c s Hp Hm).
  apply parse_unsigned_digit, Hd.
Qed.

(** A text that is empty, or starts with a character that can start
    neither white space nor a number, has no numeric prefix. *)
Lemma parseFloat_no_prefix (c : ascii) (s : string) :
  is_white c = false -> is_digit c = false ->
  c <> "+"%char -> c <> "-"%char -> c <> "."%char -> c <> "I"%char ->
  parseFloat (String c s) = NaN.
Proof.
  intros Hw Hd Hp Hm Hdot HI. unfold parseFloat. cbn [trim_start].
  rewrite Hw, (take_sign_other c s Hp Hm).
  unfold parse_unsigned. cbn [strip_prefix].
  replace (Ascii.eqb "I" c) with false
    by (symmetry; apply Ascii.eqb_neq; congruence).
  cbn [take_digits]. rewrite Hd.
  bits c; try reflexivity.
  exfalso. apply Hdot. reflexivity.
Qed.

End ParseFacts.

(** ** NumericInput over sequences of events *)

Module NumericInputSequences.
Import NumericInput NumericInputHost.

Lemma handleInputChange_log (p : NumericInputProps) (s : string) :
  fst (handleInputChange p {| currentTarget_value := s |})
  = SetInputValue s
    :: (if isNaN (parseFloat s) then [] else [OnChange (parseFloat s)]).
Proof.
  unfold handleInputChange. cbn [currentTarget_value].
  destruct (isNaN (parseFloat s)); cbn; [reflexivity|].
  destruct (onChange p (parseFloat s)); reflexivity.
Qed.

Lemma handleBlur_log (p : NumericInputProps) (t : string) :
  fst (handleBlur p t)
  = match onBlur p with
    | Some _ => [OnBlur (parseFloat t)]
    | None => []
    end.
Proof. unfold handleBlur. destruct (onBlur p); reflexivity. Qed.

Lemma onChange_args_app (l l' : list action) :
  onChange_args (l ++ l') = (onChange_args l ++ onChange_args l')%list.
Proof. apply flat_map_app. Qed.

Lemma onBlur_args_app (l l' : list action) :
  onBlur_args (l ++ l') = (onBlur_args l ++ onBlur_args l')%list.
Proof. apply flat_map_app. Qed.

(** X1. After any sequence of keystrokes and blurs the text is that of the
    last keystroke, or the text before when there was none, whatever the
    callbacks did; the props are as before. *)
Theorem text_is_that_of_last_keystroke
    (toString : number -> string) (p : NumericInputProps) (t : string)
    (evs : list interaction) :
  fst (run toString {| props := p; inputValue_hook := Some t |} evs)
  = {| props := p;
       inputValue_hook :=
         Some (fold_left (fun cur ev => match ev with
                                        | Keystroke s => s
                                        | Blur => cur
                                        end) evs t) |}.
Proof.
  revert t. induction evs as [|ev evs IH]; intros t; [reflexivity|].
  cbn [run fold_left].
  destruct ev as [s|].
  - rewrite NumericInputFacts.dispatch_Keystroke. cbn [next props].
    specialize (IH s).
    destruct (run toString _ evs) as [w' l]. exact IH.
  - rewrite NumericInputFacts.dispatch_Blur.
    cbn [next props inputValue_hook useState fst].
    specialize (IH t).
    destruct (run toString _ evs) as [w' l]. exact IH.
Qed.

(** X2. In any sequence of events [onChange] is called once for each keystroke
    whose text parses to a number, with that number, in order, and for
    nothing else: not for a text that does not parse, not on a blur. *)
Theorem onChange_calls_are_the_parsable_keystrokes
    (toString : number -> string) (w : world) (evs : list interaction) :
  onChange_args (snd (run toString w evs))
  = filter (fun n => negb (isNaN n)) (map parseFloat (typed evs)).
Proof.
  revert w. induction evs as [|ev evs IH]; intros w; [reflexivity|].
  cbn [run]. specialize (IH (next (dispatch toString w ev))).
  destruct (run toString (next (dispatch toString w ev)) evs) as [w' l].
  cbn [snd] in *. rewrite onChange_args_app, IH.
  destruct ev as [s|].
  - rewrite NumericInputFacts.dispatch_Keystroke. cbn [trace].
    rewrite handleInputChange_log.
    cbn [typed flat_map app map filter].
    change (flat_map _ evs) with (typed evs).
    destruct (isNaN (parseFloat s)); reflexivity.
  - rewrite NumericInputFacts.dispatch_Blur. cbn [trace].
    rewrite handleBlur_log.
    destruct (onBlur (props w)); reflexivity.
Qed.

(** X3. In any sequence of events a supplied [onBlur] is called once for each
    blur, and an absent one is never called; keystrokes do not call it. *)
Theorem onBlur_called_once_per_blur
    (toString : number -> string) (w : world) (evs : list interaction) :
  List.length (onBlur_args (snd (run toString w evs)))
  = match onBlur (props w) with
    | Some _ =>
        List.length (filter (fun ev => match ev with
                                       | Blur => true
                                       | Keystroke _ => false
                                       end) evs)
    | None => 0
    end.
Proof.
  revert w. induction evs as [|ev evs IH]; intros w.
  - destruct (onBlur (props w)); reflexivity.
  - cbn [run]. specialize (IH (next (dispatch toString w ev))).
    assert (Hp : props (next (dispatch toString w ev)) = props w).
    { destruct ev.
      - rewrite NumericInputFacts.dispatch_Keystroke. reflexivity.
      - rewrite NumericInputFacts.dispatch_Blur. reflexivity. }
    rewrite Hp in IH.
    destruct (run toString (next (dispatch toString w ev)) evs) as [w' l].
    cbn [snd] in *. rewrite onBlur_args_app, length_app, IH.
    destruct ev as [s|].
    + rewrite NumericInputFacts.dispatch_Keystroke. cbn [trace].
      rewrite handleInputChange_log. cbn [filter].
      destruct (isNaN (parseFloat s)); destruct (onBlur (props w));
        reflexivity.
    + rewrite NumericInputFacts.dispatch_Blur. cbn [trace].
      rewrite handleBlur_log. cbn [filter].
      destruct (onBlur (props w)); reflexivity.
Qed.

(** X4. A blur that follows a keystroke, with a render in between, reports the
    parse of the text just typed. *)
Theorem blur_after_keystroke_reports_typed_text
    (toString : number -> string) (w : world) (s : string) :
  snd (run toString w [Keystroke s; Blur])
  = ((SetInputValue s
      :: (if isNaN (parseFloat s) then [] else [OnChange (parseFloat s)]))
     ++ match onBlur (props w) with
        | Some _ => [OnBlur (parseFloat s)]
        | None => []
        end)%list.
Proof.
  cbn [run]. rewrite NumericInputFacts.dispatch_Keystroke. cbn [next trace].
  rewrite NumericInputFacts.dispatch_Blur.
  cbn [next trace props inputValue_hook useState fst snd].
  rewrite handleInputChange_log, handleBlur_log, app_nil_r. reflexivity.
Qed.

(** One event that arrives alone is an event on the current render. *)
Lemma batch_one (toString : number -> string) (w : world) (ev : interaction) :
  batch toString w [ev]
  = (next (dispatch toString w ev), trace (dispatch toString w ev)).
Proof.
  unfold batch, dispatch.
  destruct (NumericInputFacts.NumericInput_render toString (props w)
              (inputValue_hook w)) as (view & -> & _).
  cbn [fire_all]. unfold fire.
  destruct (listener view ev) as [[l r]|]; cbn [next trace];
    rewrite ?app_nil_r; reflexivity.
Qed.

Lemma fire_Keystroke (view : node) (w : world) (s : string)
    (p : NumericInputProps) :
  handler_of "onInput" view = Some (handleInputChange p) ->
  fire view w (Keystroke s)
  = {| next :=
         commit (fst (handleInputChange p {| currentTarget_value := s |})) w;
       trace := fst (handleInputChange p {| currentTarget_value := s |});
       result := snd (handleInputChange p {| currentTarget_value := s |}) |}.
Proof.
  intros H. unfold fire. cbn [listener]. rewrite H.
  destruct (handleInputChange p _); reflexivity.
Qed.

Lemma fire_Blur (view : node) (w : world) (p : NumericInputProps)
    (t : string) :
  handler_of "onBlur" view = Some (fun _ => handleBlur p t) ->
  fire view w Blur
  = {| next := commit (fst (handleBlur p t)) w;
       trace := fst (handleBlur p t);
       result := snd (handleBlur p t) |}.
Proof.
  intros H. unfold fire. cbn [listener]. rewrite H.
  destruct (handleBlur p t); reflexivity.
Qed.

(** X5. [handleBlur] reads the text of the render that made it: a blur that
    arrives after a keystroke but before the next render reports the
    parse of the text before the keystroke, while the state already holds
    the typed text. *)
Theorem blur_before_next_render_reports_old_text
    (toString : number -> string) (p : NumericInputProps) (t s : string) :
  batch toString {| props := p; inputValue_hook := Some t |}
    [Keystroke s; Blur]
  = ({| props := p; inputValue_hook := Some s |},
     ((SetInputValue s
       :: (if isNaN (parseFloat s) then [] else [OnChange (parseFloat s)]))
      ++ match onBlur p with
         | Some _ => [OnBlur (parseFloat t)]
         | None => []
         end)%list).
Proof.
  unfold batch. cbn [props inputValue_hook].
  destruct (NumericInputFacts.NumericInput_render toString p (Some t))
    as (view & -> & _ & Hin & Hbl).
  cbn [fire_all].
  rewrite (fire_Keystroke view _ s p Hin). cbn [next trace].
  rewrite handleInputChange_log.
  rewrite (fire_Blur view _ p t Hbl). cbn [next trace].
  rewrite handleBlur_log, app_nil_r.
  destruct (isNaN (parseFloat s)); destruct (onBlur p); reflexivity.
Qed.

(** X6. A keystroke whose text starts with a decimal digit always calls
    [onChange], with the parse of the text. *)
Theorem text_starting_with_digit_calls_onChange
    (toString : number -> string) (w : world) (c : ascii) (rest : string) :
  is_digit c = true ->
  trace (dispatch toString w (Keystroke (String c rest)))
  = [SetInputValue (String c rest); OnChange (parseFloat (String c rest))].
Proof.
  intros Hd. rewrite NumericInputFacts.dispatch_Keystroke. cbn [trace].
  rewrite handleInputChange_log, (ParseFacts.parseFloat_digit c rest Hd).
  reflexivity.
Qed.

Lemma text_starting_with_digit_calls_onChange_witness :
  is_digit "5" = true
  /\ trace (dispatch (fun _ => "5")
              {| props := Scenario.numeric_props; inputValue_hook := Some "5" |}
              (Keystroke "5.2"))
     = [SetInputValue "5.2"; OnChange (parseFloat "5.2")].
Proof.
  split; [reflexivity|].
  exact (text_starting_with_digit_calls_onChange (fun _ => "5")
           {| props := Scenario.numeric_props; inputValue_hook := Some "5" |}
           "5" ".2" eq_refl).
Defined.

(** X7. A keystroke that leaves the field empty, or a text starting with a
    character that is not white space, a digit, a sign, a dot or the I of
    Infinity, sets the text and calls nothing. *)
Theorem text_without_numeric_start_calls_nothing
    (toString : number -> string) (w : world) (text : string) :
  match text with
  | EmptyString => True
  | String c _ =>
      is_white c = false /\ is_digit c = false
      /\ c <> "+"%char /\ c <> "-"%char /\ c <> "."%char /\ c <> "I"%char
  end ->
  trace (dispatch toString w (Keystroke text)) = [SetInputValue text]
  /\ inputValue_hook (next (dispatch toString w (Keystroke text))) = Some text.
Proof.
  intros H. rewrite NumericInputFacts.dispatch_Keystroke. cbn [trace next].
  rewrite handleInputChange_log. split; [|reflexivity].
  destruct text as [|c rest]; [reflexivity|].
  destruct H as (Hw & Hd & Hp & Hm & Hdot & HI).
  rewrite (ParseFacts.parseFloat_no_prefix c rest Hw Hd Hp Hm Hdot HI).
  reflexivity.
Qed.

Lemma text_without_numeric_start_calls_nothing_witness :
  (is_white "a" = false /\ is_digit "a" = false
   /\ "a"%char <> "+"%char /\ "a"%char <> "-"%char
   /\ "a"%char <> "."%char /\ "a"%char <> "I"%char)
  /\ trace (dispatch (fun _ => "5")
              {| props := Scenario.numeric_props; inputValue_hook := Some "5" |}
              (Keystroke "abc"))
     = [SetInputValue "abc"].
Proof.
  assert (H : is_white "a" = false /\ is_digit "a" = false
              /\ "a"%char <> "+"%char /\ "a"%char <> "-"%char
              /\ "a"%char <> "."%char /\ "a"%char <> "I"%char)
    by (repeat split; discriminate).
  split; [exact H|].
  exact (proj1 (text_without_numeric_start_calls_nothing (fun _ => "5")
                  {| props := Scenario.numeric_props;
                     inputValue_hook := Some "5" |}
                  "abc" H)).
Defined.

End NumericInputSequences.

(** ** Dropdown over sequences of events *)

Module DropdownSequences.
Import Dropdown DropdownHost.

Section WithElement.
Context {JSXElement : Type}.
Implicit Types (p : DropdownProps JSXElement) (w : world JSXElement).

Lemma selections_app (l l' : list action) :
  selections (l ++ l') = (selections l ++ selections l')%list.
Proof. apply flat_map_app. Qed.

(** The props never change in a sequence of events. *)
Lemma run_props (evs : list interaction) :
  forall w, props (fst (run w evs)) = props w.
Proof.
  induction evs as [|ev evs IH]; intros w; [reflexivity|].
  cbn [run]. specialize (IH (next (dispatch w ev))).
  destruct (run (next (dispatch w ev)) evs) as [w' l].
  cbn [fst] in *. rewrite IH. apply DropdownFacts.dispatch_frame.
Qed.

(** What the toggle button shows depends on the props alone. *)
Lemma toggle_text_props w :
  toggle_text w
  = [match selectedOption (props w) with
     | Obj o => name o
     | _ => match placeholder (props w) with
            | Some s => s
            | None => "Select an option"
            end
     end].
Proof.
  unfold toggle_text. rewrite DropdownFacts.Dropdown_render.
  destruct (selectedOption (props w)); reflexivity.
Qed.

(** A click on the listeners of a render made in the state [b]. *)
Lemma fire_ClickToggle p (hook : option bool) (view : node JSXElement)
    (hook' : option bool) w :
  Dropdown p hook = ([], Returns (view, hook')) ->
  fire view w ClickToggle
  = {| next := {| props := props w;
                  isOpen_hook := Some (negb (fst (useState false hook))) |};
       trace := [SetIsOpen (negb (fst (useState false hook)))];
       result := Returns tt |}.
Proof.
  intros H. destruct (DropdownFacts.listener_toggle p hook view hook' H)
    as [Hc _].
  unfold fire. rewrite Hc. reflexivity.
Qed.

End WithElement.

(** X9. Clicks on the toggle button, each on the render that follows the one
    before, alternate the state: after [n] clicks the dropdown is where
    it started when [n] is even and in the other state when [n] is odd;
    [onSelect] is not called. *)
Theorem clicks_alternate_the_state
    {JSXElement : Type} (p : DropdownProps JSXElement) (b : bool) (n : nat) :
  fst (run {| props := p; isOpen_hook := Some b |} (repeat ClickToggle n))
  = {| props := p; isOpen_hook := Some (xorb b (Nat.odd n)) |}
  /\ selections
       (snd (run {| props := p; isOpen_hook := Some b |}
               (repeat ClickToggle n)))
     = [].
Proof.
  revert b. induction n as [|n IH]; intros b.
  - cbn. rewrite xorb_false_r. auto.
  - cbn [repeat run]. rewrite DropdownFacts.dispatch_ClickToggle.
    cbn [next trace props isOpen_hook useState fst].
    specialize (IH (negb b)).
    destruct (run _ (repeat ClickToggle n)) as [w' l].
    cbn [fst snd] in *. destruct IH as [-> Hl].
    split; [|rewrite selections_app, Hl; reflexivity].
    rewrite Nat.odd_succ, <- Nat.negb_odd.
    destruct b, (Nat.odd n); reflexivity.
Qed.

(** X10. [toggleDropdown] negates the state of the render that made it, not the
    current one: clicks that all arrive before the next render all set
    the same state, so any number of them, one or more, leaves the
    dropdown in the state opposite to the rendered one. *)
Theorem clicks_before_next_render_do_not_alternate
    {JSXElement : Type} (p : DropdownProps JSXElement) (b : bool) (n : nat) :
  batch {| props := p; isOpen_hook := Some b |} (repeat ClickToggle (S n))
  = ({| props := p; isOpen_hook := Some (negb b) |},
     repeat (SetIsOpen (negb b)) (S n)).
Proof.
  unfold batch. cbn [props isOpen_hook].
  destruct (Dropdown p (Some b)) as [l0 [[view hook']|e]] eqn:Hv;
    [|rewrite DropdownFacts.Dropdown_render in Hv; discriminate Hv].
  assert (l0 = [] /\ hook' = Some b) as [-> ->].
  { rewrite DropdownFacts.Dropdown_render in Hv. inversion Hv.
    split; reflexivity. }
  assert (Hall : forall m (w : world JSXElement),
             props w = p ->
             fire_all view w (repeat ClickToggle (S m))
             = ({| props := p; isOpen_hook := Some (negb b) |},
                repeat (SetIsOpen (negb b)) (S m))).
  { induction m as [|m IHm]; intros w Hp.
    - cbn [repeat fire_all].
      rewrite (fire_ClickToggle p (Some b) view (Some b) w Hv).
      cbn [next trace useState fst]. rewrite Hp. reflexivity.
    - change (repeat ClickToggle (S (S m)))
        with (ClickToggle :: repeat ClickToggle (S m)).
      cbn [fire_all].
      rewrite (fire_ClickToggle p (Some b) view (Some b) w Hv).
      cbn [next trace useState fst].
      rewrite IHm by exact Hp. reflexivity. }
  apply Hall. reflexivity.
Qed.

(** X11. A closed dropdown stays closed and selects nothing until its toggle
    button is clicked: blurs and presses change nothing. *)
Theorem closed_stays_closed_without_click
    {JSXElement : Type} (p : DropdownProps JSXElement)
    (evs : list interaction) :
  Forall (fun ev => ev <> ClickToggle) evs ->
  fst (run {| props := p; isOpen_hook := Some false |} evs)
  = {| props := p; isOpen_hook := Some false |}
  /\ selections (snd (run {| props := p; isOpen_hook := Some false |} evs))
     = [].
Proof.
  induction 1 as [|ev evs Hev _ IH]; [split; reflexivity|].
  cbn [run].
  assert (Hd : next (dispatch {| props := p; isOpen_hook := Some false |} ev)
               = {| props := p; isOpen_hook := Some false |}
               /\ selections
                    (trace (dispatch
                              {| props := p; isOpen_hook := Some false |} ev))
                  = []).
  { destruct ev as [| |i].
    - contradiction Hev; reflexivity.
    - rewrite DropdownFacts.dispatch_BlurToggle. split; reflexivity.
    - rewrite DropdownFacts.dispatch_MouseDownItem_nothing
        by (left; reflexivity).
      split; reflexivity. }
  destruct Hd as [-> Ht].
  destruct (run _ evs) as [w' l]. cbn [fst snd] in *.
  destruct IH as [-> Hl]. rewrite selections_app, Ht, Hl. auto.
Qed.

Lemma closed_stays_closed_without_click_witness :
  Forall (fun ev => ev <> ClickToggle)
    [MouseDownItem 0; BlurToggle; MouseDownItem 1]
  /\ fst (run {| props := Scenario.dropdown_props Scenario.returning;
                 isOpen_hook := Some false |}
            [MouseDownItem 0; BlurToggle; MouseDownItem 1])
     = {| props := Scenario.dropdown_props Scenario.returning;
          isOpen_hook := Some false |}
  /\ selections
       (snd (run {| props := Scenario.dropdown_props Scenario.returning;
                    isOpen_hook := Some false |}
               [MouseDownItem 0; BlurToggle; MouseDownItem 1]))
     = [].
Proof.
  assert (H : Forall (fun ev => ev <> ClickToggle)
                [MouseDownItem 0; BlurToggle; MouseDownItem 1])
    by (repeat constructor; discriminate).
  split; [exact H|].
  exact (closed_stays_closed_without_click
           (Scenario.dropdown_props Scenario.returning) _ H).
Defined.

(** X12. With an empty option list the open dropdown shows a menu without
    items, and no sequence of events calls [onSelect]. *)
Theorem empty_options_select_nothing
    {JSXElement : Type} (w : world JSXElement) (evs : list interaction) :
  options (props w) = [] ->
  (exists view menu,
      Dropdown (props w) (Some true) = ([], Returns (view, Some true))
      /\ find_class "dropdown-menu" view = Some menu
      /\ children_of menu = [])
  /\ selections (snd (run w evs)) = [].
Proof.
  intros Hempty. split.
  - do 2 eexists. split; [apply DropdownFacts.Dropdown_render|].
    cbn [useState fst]. rewrite Hempty.
    destruct (selectedOption (props w)), (placeholder (props w));
      split; reflexivity.
  - revert w Hempty. induction evs as [|ev evs IH]; intros w Hempty;
      [reflexivity|].
    cbn [run].
    destruct (DropdownFacts.dispatch_frame w ev) as [Hp Ht].
    specialize (IH (next (dispatch w ev))).
    rewrite Hp in IH. specialize (IH Hempty).
    destruct (run (next (dispatch w ev)) evs) as [w' l]. cbn [snd] in *.
    rewrite selections_app, IH, app_nil_r.
    rewrite Hempty in Ht. clear - Ht.
    induction Ht as [|a l Ha _ IHl]; [reflexivity|].
    cbn [selections flat_map]. fold (selections l). rewrite IHl.
    destruct a as [v| |x|i f]; try reflexivity.
    destruct Ha as (o & _ & []).
Qed.

Lemma empty_options_select_nothing_witness :
  let w := {| props := {| options := [];
                          selectedOption := Null;
                          onSelect := Scenario.returning;
                          placeholder := None;
                          renderOption := @None (DropdownOption -> Empty_set) |};
              isOpen_hook := Some false |} in
  options (props w) = []
  /\ selections (snd (run w [ClickToggle; MouseDownItem 0; ClickToggle])) = [].
Proof.
  cbn zeta. split; [reflexivity|].
  exact (proj2 (empty_options_select_nothing
                  {| props := {| options := [];
                                 selectedOption := Null;
                                 onSelect := Scenario.returning;
                                 placeholder := None;
                                 renderOption :=
                                   @None (DropdownOption -> Empty_set) |};
                     isOpen_hook := Some false |}
                  [ClickToggle; MouseDownItem 0; ClickToggle] eq_refl)).
Defined.

(** X13. What the toggle button shows is decided by the props alone: the name
    of the selected option when the caller passes one, the placeholder
    otherwise. No event changes it; after a selection the button shows
    what it showed before, until the caller passes another
    [selectedOption]. *)
Theorem toggle_text_is_unchanged_by_events
    {JSXElement : Type} (w : world JSXElement) (evs : list interaction) :
  toggle_text (fst (run w evs)) = toggle_text w
  /\ toggle_text w
     = [match selectedOption (props w) with
        | Obj o => name o
        | _ => match placeholder (props w) with
               | Some s => s
               | None => "Select an option"
               end
        end].
Proof.
  rewrite !toggle_text_props, run_props. split; reflexivity.
Qed.

(** X14. After a selection whose callback returned, the menu is gone: a second
    press, at any index, finds no item and selects nothing more. *)
Theorem second_press_after_selection_selects_nothing
    {JSXElement : Type} (p : DropdownProps JSXElement)
    (i j : nat) (o : DropdownOption) :
  nth_error (options p) i = Some o ->
  onSelect p (Some o) = Returns tt ->
  run {| props := p; isOpen_hook := Some true |}
    [MouseDownItem i; MouseDownItem j]
  = ({| props := p; isOpen_hook := Some false |},
     [PreventDefault; OnSelect (Some o); SetIsOpen false]).
Proof.
  intros Hnth Hret. cbn [run].
  rewrite (DropdownFacts.dispatch_MouseDownItem_open p i o Hnth), Hret.
  cbn [next trace].
  rewrite DropdownFacts.dispatch_MouseDownItem_nothing by (left; reflexivity).
  reflexivity.
Qed.

Lemma second_press_after_selection_selects_nothing_witness :
  nth_error (options (Scenario.dropdown_props Scenario.returning)) 1
  = Some Scenario.optionB
  /\ onSelect (Scenario.dropdown_props Scenario.returning)
       (Some Scenario.optionB)
     = Returns tt
  /\ run {| props := Scenario.dropdown_props Scenario.returning;
            isOpen_hook := Some true |}
       [MouseDownItem 1; MouseDownItem 0]
     = ({| props := Scenario.dropdown_props Scenario.returning;
           isOpen_hook := Some false |},
        [PreventDefault; OnSelect (Some Scenario.optionB); SetIsOpen false]).
Proof.
  split; [reflexivity|]. split; [reflexivity|].
  exact (second_press_after_selection_selects_nothing
           (Scenario.dropdown_props Scenario.returning) 1 0
           Scenario.optionB eq_refl eq_refl).
Defined.

End DropdownSequences.

(** ** NumericInput behind its element of type number *)

Module NumericInputElement.
Import NumericInput NumericInputHost ParseFacts.







(** What a keystroke through the element does, in terms of what the
    element reports. *)
Lemma type_text_trace (toString : number -> string) (w : world)
    (typed : string) :
  trace (type_text toString w typed)
  = SetInputValue (sanitize typed)
    :: (if isNaN (parseFloat (sanitize typed)) then []
        else [OnChange (parseFloat (sanitize typed))]).
Proof.
  unfold type_text. rewrite NumericInputFacts.dispatch_Keystroke.
  cbn [trace]. apply NumericInputSequences.handleInputChange_log.
Qed.


(** The texts of the specification, typed into the field: 5.2 is
    reported, 3.5x, 12abc and abc are not. *)
Example typing_examples (toString : number -> string) (w : world) :
  trace (type_text toString w "5.2")
  = [SetInputValue "5.2"; OnChange (parseFloat "5.2")]
  /\ trace (type_text toString w "3.5x") = [SetInputValue EmptyString]
  /\ trace (type_text toString w "12abc") = [SetInputValue EmptyString]
  /\ trace (type_text toString w "abc") = [SetInputValue EmptyString].
Proof.
  rewrite !type_text_trace.
  replace (sanitize "5.2") with "5.2" by (vm_compute; reflexivity).
  replace (sanitize "3.5x") with EmptyString by (vm_compute; reflexivity).
  replace (sanitize "12abc") with EmptyString by (vm_compute; reflexivity).
  replace (sanitize "abc") with EmptyString by (vm_compute; reflexivity).
  replace (isNaN (parseFloat "5.2")) with false by (vm_compute; reflexivity).
  replace (isNaN (parseFloat EmptyString)) with true
    by (vm_compute; reflexivity).
  repeat split.
Qed.

End NumericInputElement.
